(** * The HierarchicalMenu widget of react-instantsearch

    A verification development for
    [packages/react-instantsearch/src/widgets/HierarchicalMenu.js].

    The module binds one constant, [cx], by calling the imported
    [classNames] helper once, defines the arrow function [Widget] that
    builds a two-element JSX tree, attaches a [propTypes] table to it and
    exports the result of [connectHierarchicalMenu(Widget)].

    JavaScript objects used as property bags (the [props] of a component,
    the attribute object of a JSX element) are finite maps from strings to
    values.  Module evaluation and rendering run in a small monad that
    threads a trace of the calls made to imported helpers and can throw, so
    that "renders nothing but its output" and "does not throw" are
    statements about a run and not about the type of a function. *)

From Stdlib Require Import ZArith.
From stdpp Require Import gmap strings list fin_maps pretty.


Set Warnings "-register-all".

(** ** Values *)

(** What a property of a [props] object can hold.  A class-name function is
    a function from a region key to a class name; any other function a
    caller passes ([transformItems], [refine], ...) is never called by this
    module and is kept by its identity only.  A React element received from
    the caller (for instance as [header]) is likewise opaque. *)
Inductive value : Type :=
| VUndefined
| VNull
| VBool (b : bool)
| VNum (n : Z)
| VStr (s : string)
| VArr (items : list value)
| VObj (fields : list (string * value))
| VElement (id : string)
| VClassNameFn (f : string → string)
| VFunction (id : string).

(** A props object, and equally the attribute object of a JSX element. *)
Abbreviation Props := (gmap string value).

(** [o.k]: reading a property that the object does not have gives
    [undefined]. *)
Definition get (o : Props) (k : string) : value :=
  default VUndefined (o !! k).

(** [v == null] in JavaScript: [null] or [undefined]. *)
Definition nullish (v : value) : bool :=
  match v with
  | VUndefined | VNull => true
  | _ => false
  end.

(** ** JSX elements *)

(** The two component types the module imports and renders. *)
Inductive component : Type :=
| BaseWidget
| HierarchicalMenuComponent.

#[export] Instance component_eq_dec : EqDecision component.
Proof. solve_decision. Defined.

(** One attribute of a JSX opening tag: [name={v}] or a spread [{...o}]. *)
Inductive attribute : Type :=
| Attr (name : string) (v : value)
| Spread (o : Props).

(** The attribute object of a tag is built left to right: a named attribute
    sets its key, a spread copies every own property of its object over
    what is there already ([Object.assign]). *)
Definition add_attribute (acc : Props) (a : attribute) : Props :=
  match a with
  | Attr k v => <[k := v]> acc
  | Spread o => o ∪ acc
  end.

Definition attributes (l : list attribute) : Props :=
  foldl add_attribute ∅ l.

(** A JSX element: its type, its attribute object and the elements nested
    in it.  (The reserved attributes [key] and [ref] never occur in the
    props object a component receives, so they are not treated apart.) *)
Inductive element : Type :=
| Element (type : component) (attrs : Props) (children : list element).

Definition jsx (type : component) (l : list attribute)
    (children : list element) : element :=
  Element type (attributes l) children.

Definition el_type (e : element) : component :=
  match e with Element t _ _ => t end.
Definition el_attrs (e : element) : Props :=
  match e with Element _ a _ => a end.
Definition el_children (e : element) : list element :=
  match e with Element _ _ c => c end.

(** ** The render monad: a trace of helper calls, and exceptions *)

(** How a prop can fail its checker: absent though required, or of the
    wrong kind. *)
Inductive failure : Type :=
| Missing
| Mismatch.

(** What a run can do besides returning: call an imported helper. *)
Inductive event : Type :=
| CalledClassNames (block : string)
| CalledConnect.

Inductive error : Type :=
| TypeError (msg : string)
| ReferenceError (name : string)
| ConfigurationError (msg : string).

Inductive outcome (A : Type) : Type :=
| Returned (a : A)
| Thrown (e : error).
Arguments Returned {A} a.
Arguments Thrown {A} e.

Definition M (A : Type) : Type := list event → outcome A * list event.

#[export] Instance M_ret : MRet M := λ A a t, (Returned a, t).

#[export] Instance M_bind : MBind M := λ A B k m t,
  match m t with
  | (Returned a, t') => k a t'
  | (Thrown e, t') => (Thrown e, t')
  end.

Definition throw {A} (e : error) : M A := λ t, (Thrown e, t).

Definition emit (ev : event) : M unit := λ t, (Returned tt, t ++ [ev]).

Definition result {A} (r : outcome A * list event) : outcome A := r.1.
Definition trace_after {A} (r : outcome A * list event) : list event := r.2.

(** ** The imported class-name helper *)

(** Modelled from the spec: [classNames] of [../components/classNames],
    which is not among the sources.  The spec gives the class name of a
    region as "concatenation of a fixed prefix and region key", with
    identifiers of the form [ais-HierarchicalMenu-<region>]: the fixed
    prefix is [ais-], followed by the widget's name and a dash. *)
Definition prefix : string := "ais".

Definition className (block region : string) : string :=
  (prefix +:+ "-" +:+ block +:+ "-" +:+ region)%string.

Definition classNames (block : string) : M value :=
  emit (CalledClassNames block) ;;
  mret (VClassNameFn (className block)).

(** ** The widget *)

(** [const Widget = props => (...)], with the module constant [cx] that the
    arrow function closes over as first argument. *)
Definition Widget (cx : value) (props : Props) : M element :=
  mret (jsx BaseWidget
         [Attr "cx" cx;
          Attr "header" (get props "header");
          Attr "footer" (get props "footer")]
         [jsx HierarchicalMenuComponent [Attr "cx" cx; Spread props] []]).

(** The attribute objects handed to the elements of type [c] in a tree, in
    document order. *)
Fixpoint passed_to (c : component) (e : element) : list Props :=
  match e with
  | Element t a ch =>
      (if decide (t = c) then [a] else []) ++ flat_map (passed_to c) ch
  end.

(** ** Prop validation *)

(** A checker of the [PropTypes] vocabulary, as the module spells it:
    [PropTypes.node], and [.isRequired] taken of a checker. *)
Inductive propType : Type :=
| PropTypes_node
| isRequired (t : propType).

(** [Widget.propTypes = { header: PropTypes.node, footer: PropTypes.node }],
    in the order of the object literal. *)
Definition Widget_propTypes : list (string * propType) :=
  [("header", PropTypes_node); ("footer", PropTypes_node)].

Section Checking.

(** The test for renderable content ([node]) belongs to the [prop-types]
    package; the development holds for any such test. *)
Variable renderable : value → bool.

(** A checker first looks whether the prop is there at all ([== null]):
    an absent prop fails only under [.isRequired]; a present one is
    tested for its kind. *)
Fixpoint check (required : bool) (t : propType) (v : value) : option failure :=
  match t with
  | isRequired t' => check true t' v
  | PropTypes_node =>
      if nullish v then (if required then Some Missing else None)
      else if renderable v then None else Some Mismatch
  end.

(** Every entry of the table is run against the props; the failures come
    out in the order of the table. *)
Definition checkPropTypes (typeSpecs : list (string * propType))
    (props : Props) : list (string * failure) :=
  omap (λ '(k, t), (k,.) <$> check false t (get props k)) typeSpecs.

End Checking.

(** The renderable values of [prop-types]' [node]: numbers, strings,
    elements, [null], [undefined], [false], and arrays of those. *)
Fixpoint isNode (v : value) : bool :=
  match v with
  | VUndefined | VNull | VNum _ | VStr _ | VElement _ => true
  | VBool b => negb b
  | VArr items => forallb isNode items
  | VObj _ | VClassNameFn _ | VFunction _ => false
  end.

(** ** The outer chrome *)

(** What a render leaves in the document: a region carrying a theme key and
    its class name, passthrough content, or a nested element that its own
    renderer will expand. *)
Inductive markup : Type :=
| Region (key className : string) (content : list markup)
| Content (v : value)
| Nested (e : element).

(** Calling the [cx] a component received: only a function can be called. *)
Definition call_cx (cx : value) (region : string) : M string :=
  match cx with
  | VClassNameFn f => mret (f region)
  | _ => throw (TypeError "cx is not a function")
  end.

(** A prop is provided when it is not absent, that is neither [undefined]
    nor [null]. *)
Definition provided (v : value) : bool := negb (nullish v).

Definition optional_region (key className : string) (v : value) : list markup :=
  if provided v then [Region key className [Content v]] else [].

(** Modelled from the spec: [BaseWidget] of [./BaseWidget], which is not
    among the sources.  The spec describes "an outer chrome container" that
    applies the class-name function to every themable region, renders
    [header] and [footer] "as opaque passthrough content if provided" and
    "neither if absent", the header before the body and the footer after
    it, the body holding the nested renderer. *)
Definition BaseWidget_render (attrs : Props) (children : list element) : M markup :=
  let cx := get attrs "cx" in
  root ← call_cx cx "root";
  header ← call_cx cx "header";
  body ← call_cx cx "body";
  footer ← call_cx cx "footer";
  mret (Region "root" root
          (optional_region "header" header (get attrs "header") ++
           [Region "body" body (Nested <$> children)] ++
           optional_region "footer" footer (get attrs "footer"))).

(** One render pass of the widget: the function builds its tree and the
    chrome at the top of it is expanded. *)
Definition render (cx : value) (props : Props) : M markup :=
  e ← Widget cx props;
  match e with
  | Element BaseWidget attrs children => BaseWidget_render attrs children
  | _ => mret (Nested e)
  end.

(** The regions directly under the root of a chrome. *)
Definition chrome (m : markup) : list markup :=
  match m with
  | Region _ _ content => content
  | _ => []
  end.

Definition region_key (m : markup) : option string :=
  match m with
  | Region k _ _ => Some k
  | _ => None
  end.

(** ** The documented configuration *)

(** One [@propType] line of the widget's documentation: the type in braces,
    the name, and, for a bracketed (optional) prop, the default after [=]
    when the line gives one. *)
Inductive presence : Type :=
| Required
| Optional (default : option value).

Record propDoc : Type := PropDoc {
  doc_type : string;
  doc_name : string;
  doc_presence : presence
}.

Definition propType_docs : list propDoc :=
  [PropDoc "string" "attributes" Required;
   PropDoc "boolean" "showMore" (Optional (Some (VBool false)));
   PropDoc "number" "limitMin" (Optional (Some (VNum 10)));
   PropDoc "number" "limitMax" (Optional (Some (VNum 20)));
   PropDoc "string" "separator" (Optional (Some (VStr ">")));
   PropDoc "string[]" "rootPath" (Optional (Some VNull));
   PropDoc "boolean" "showParentLevel" (Optional (Some (VBool true)));
   PropDoc "string" "defaultRefinement" (Optional None);
   PropDoc "function" "transformItems" (Optional None);
   PropDoc "node" "header" (Optional None);
   PropDoc "node" "footer" (Optional None)].

Definition documented_default (d : propDoc) : option (string * value) :=
  match doc_presence d with
  | Optional (Some v) => Some (doc_name d, v)
  | _ => None
  end.

(** Modelled from the spec: the defaults the connector applies; its
    [defaultProps] are not among the sources.  The spec gives [showMore]
    false, [limitMin] 10, [limitMax] 20, [separator] ['>'], [rootPath]
    none and [showParentLevel] true, which are the values of the
    [@propType] lines, from which the table is built. *)
Definition defaultProps : Props :=
  list_to_map (omap documented_default propType_docs).

(** Modelled from the spec: the defaults are applied by
    [connectHierarchicalMenu] of [../connectors/connectHierarchicalMenu.js],
    which is not among the sources.  The spec lists each default as the
    value of the prop "when omitted": a prop the caller gives keeps its
    value, an omitted one takes the documented default. *)
Definition configuration (props : Props) : Props := props ∪ defaultProps.

(** The ambient search state a connector reads: the attributes enabled for
    faceting on the index, the current hierarchy item tree and the
    refinement function. *)
Record searchState : Type := SearchState {
  st_facets : list string;
  st_items : value;
  st_refine : value
}.

(** The [attributes] prop as an ordered list of attribute names, when it is
    one. *)
Definition attribute_names (v : value) : option (list string) :=
  match v with
  | VArr l => mapM (λ i, match i with VStr a => Some a | _ => None end) l
  | _ => None
  end.

(** A configuration is in order when [attributes] is a non-empty list of
    names, all of them enabled for faceting. *)
Definition well_configured (st : searchState) (config : Props) : bool :=
  match attribute_names (get config "attributes") with
  | Some (a :: names) =>
      forallb (λ x, bool_decide (x ∈ st_facets st)) (a :: names)
  | _ => false
  end.

(** What the connector hands on: the configuration passed through, with
    the item tree and the refinement function it supplies. *)
Definition connected_props (st : searchState) (config : Props) : Props :=
  <["items" := st_items st]> (<["refine" := st_refine st]> config).

(** Modelled from the spec: [connectHierarchicalMenu] of
    [../connectors/connectHierarchicalMenu.js], which is not among the
    sources.  The spec has the connector take the configuration and the
    ambient search state and give the widget "the current Hierarchy Item
    tree, a refinement function" and "pass-through of configuration", and
    has it signal "a configuration error if [attributes] is empty or if
    requested attributes are not enabled for faceting", reported to the
    host and fatal to the render pass.  It wraps the widget once, at module
    evaluation. *)
Definition connectHierarchicalMenu (Composed : Props → M element)
    : M (searchState → Props → M element) :=
  emit CalledConnect ;;
  mret (λ st props,
          let config := configuration props in
          if well_configured st config
          then Composed (connected_props st config)
          else throw (ConfigurationError "attributes")).

(** JavaScript truthiness, for a flag read in a condition. *)
Definition truthy (v : value) : bool :=
  match v with
  | VUndefined | VNull => false
  | VBool b => b
  | VNum n => negb (n =? 0)%Z
  | VStr s => negb (String.eqb s "")
  | _ => true
  end.

(** Modelled from the spec: the number of items shown, computed by the
    collaborators.  [limitMax] is "used only if [showMore]", once the user
    has triggered the show more; [limitMin] applies otherwise. *)
Definition displayed_limit (config : Props) (extended : bool) : value :=
  if truthy (get config "showMore") && extended
  then get config "limitMax"
  else get config "limitMin".

(** ** The module *)

(** The bindings of the module once evaluated: the constant [cx], the
    function [Widget] with its [propTypes], and the default export. *)
Record module : Type := Module_ {
  m_cx : value;
  m_Widget : Props → M element;
  m_propTypes : list (string * propType);
  m_default : searchState → Props → M element
}.

(** The top-level statements, in order. *)
Definition HierarchicalMenu_js : M module :=
  cx ← classNames "HierarchicalMenu";
  let Widget' := Widget cx in
  let propTypes := Widget_propTypes in
  connected ← connectHierarchicalMenu Widget';
  mret (Module_ cx Widget' propTypes connected).

(** The class-name function the module binds. *)
Definition cx : value := VClassNameFn (className "HierarchicalMenu").

(** ** Theme keys *)

(** The [@themeKey] lines of the documentation, in order. *)
Definition themeKeys : list string :=
  ["ais-HierarchicalMenu";
   "ais-HierarchicalMenu-header";
   "ais-HierarchicalMenu-body";
   "ais-HierarchicalMenu-searchBox";
   "ais-HierarchicalMenu-list";
   "ais-HierarchicalMenu-list--lvl0";
   "ais-HierarchicalMenu-list--lvl1";
   "ais-HierarchicalMenu-item";
   "ais-HierarchicalMenu-item--selected";
   "ais-HierarchicalMenu-item--parent";
   "ais-HierarchicalMenu-link";
   "ais-HierarchicalMenu-label";
   "ais-HierarchicalMenu-count";
   "ais-HierarchicalMenu-footer"].

(** The list key of a level; the documentation gives levels 0 and 1 "and so
    on". *)
Definition list_level_key (n : nat) : string :=
  "ais-HierarchicalMenu-list--lvl" +:+ pretty n.

Definition is_themeKey (s : string) : Prop :=
  s ∈ themeKeys ∨ ∃ n, s = list_level_key n.

(** The enumeration in the words of the specification: one identifier per
    visual region, the list having one per level. *)
Inductive visual_region : Type :=
| RootRegion
| HeaderRegion
| BodyRegion
| ListRegion (level : nat)
| ItemRegion
| SelectedItemRegion
| ParentItemRegion
| LinkRegion
| LabelRegion
| CountRegion
| FooterRegion.

Definition spec_themeKey (r : visual_region) : string :=
  match r with
  | RootRegion => "ais-HierarchicalMenu"
  | HeaderRegion => "ais-HierarchicalMenu-header"
  | BodyRegion => "ais-HierarchicalMenu-body"
  | ListRegion n => list_level_key n
  | ItemRegion => "ais-HierarchicalMenu-item"
  | SelectedItemRegion => "ais-HierarchicalMenu-item--selected"
  | ParentItemRegion => "ais-HierarchicalMenu-item--parent"
  | LinkRegion => "ais-HierarchicalMenu-link"
  | LabelRegion => "ais-HierarchicalMenu-label"
  | CountRegion => "ais-HierarchicalMenu-count"
  | FooterRegion => "ais-HierarchicalMenu-footer"
  end.

(** The props the inner renderer would get if the widget split its props
    as [{ header, footer, ...rest }], in the words of the specification:
    the fields of [rest] plus the class-name function. *)
Definition spec_inner_props (cx : value) (props : Props) : Props :=
  <["cx" := cx]> (delete "header" (delete "footer" props)).

(** What a render of [Widget] hands to the elements of type [c]. *)
Definition forwarded (c : component) (cx : value) (props : Props) : list Props :=
  match result (Widget cx props []) with
  | Returned tree => passed_to c tree
  | Thrown _ => []
  end.

(** * Properties *)

(** Membership of a literal in a literal list. *)
Ltac in_literal_list :=
  repeat first [apply list_elem_of_here | apply list_elem_of_further].

(** ** The attribute objects of the two elements *)

Lemma attributes_outer (c h f : value) :
  attributes [Attr "cx" c; Attr "header" h; Attr "footer" f]
  = <["footer" := f]> (<["header" := h]> {["cx" := c]}).
Proof. unfold attributes. simpl. by rewrite insert_empty. Qed.

Lemma attributes_inner (c : value) (props : Props) :
  attributes [Attr "cx" c; Spread props] = props ∪ {["cx" := c]}.
Proof. unfold attributes. simpl. by rewrite insert_empty. Qed.

Lemma Widget_run (c : value) (props : Props) (t : list event) :
  Widget c props t
  = (Returned
       (Element BaseWidget
          (<["footer" := get props "footer"]>
             (<["header" := get props "header"]> {["cx" := c]}))
          [Element HierarchicalMenuComponent (props ∪ {["cx" := c]}) []]),
     t).
Proof.
  unfold Widget, jsx. rewrite attributes_outer, attributes_inner. reflexivity.
Qed.

Lemma forwarded_inner (c : value) (props : Props) :
  forwarded HierarchicalMenuComponent c props = [props ∪ {["cx" := c]}].
Proof. unfold forwarded. rewrite Widget_run. reflexivity. Qed.

Lemma forwarded_outer (c : value) (props : Props) :
  forwarded BaseWidget c props
  = [<["footer" := get props "footer"]>
       (<["header" := get props "header"]> {["cx" := c]})].
Proof. unfold forwarded. rewrite Widget_run. reflexivity. Qed.

Lemma inner_lookup_Some (c v : value) (props : Props) (k : string) :
  props !! k = Some v → (props ∪ {["cx" := c]}) !! k = Some v.
Proof. intros H. by apply lookup_union_Some_l. Qed.

Lemma inner_lookup_None (c : value) (props : Props) (k : string) :
  props !! k = None → (props ∪ {["cx" := c]}) !! k = ({["cx" := c]} : Props) !! k.
Proof. intros H. by apply lookup_union_r. Qed.

Lemma inner_lookup_other (c : value) (props : Props) (k : string) :
  k ≠ "cx" → (props ∪ {["cx" := c]}) !! k = props !! k.
Proof.
  intros Hk. destruct (props !! k) as [v|] eqn:E.
  - by apply inner_lookup_Some.
  - rewrite inner_lookup_None by done. by rewrite lookup_singleton_ne.
Qed.

Lemma singleton_list_inj {A} (a b : A) : [a] = [b] → a = b.
Proof. congruence. Qed.

Lemma outer_lookup_cx (c h f : value) :
  (<["footer" := f]> (<["header" := h]> ({["cx" := c]} : Props))) !! "cx" = Some c.
Proof. by simplify_map_eq. Qed.

(** ** What reaches the inner renderer *)

(** C1, as stated, fails: with a header among the props, the inner renderer
    does receive the [header] field, so what it receives is not "the fields
    of rest plus the class-name function". *)
Lemma inner_renderer_receives_header :
  forwarded HierarchicalMenuComponent cx {["header" := VStr "Categories"]}
    ≠ [spec_inner_props cx {["header" := VStr "Categories"]}]
  ∧ ∃ inner,
      forwarded HierarchicalMenuComponent cx {["header" := VStr "Categories"]} = [inner]
      ∧ inner !! "header" = Some (VStr "Categories").
Proof.
  rewrite forwarded_inner. split.
  - intros H%singleton_list_inj.
    apply (f_equal (λ m : Props, m !! "header")) in H.
    unfold spec_inner_props in H.
    rewrite lookup_insert_ne, lookup_delete_eq in H by done.
    erewrite inner_lookup_Some in H by apply lookup_singleton_eq.
    discriminate.
  - eexists. split; [reflexivity|].
    apply inner_lookup_Some, lookup_singleton_eq.
Qed.

(** C1, amended: the inner renderer receives one attribute object, the
    spread of all the props over the widget's class-name function: every
    field of the props, [header] and [footer] included, arrives with its
    value, nothing else is added but [cx], and [cx] is the widget's
    class-name function when the props have no [cx] of their own.  Header
    and footer are handed to the outer chrome as well. *)
Theorem inner_renderer_receives_all_props (c : value) (props : Props) :
  forwarded HierarchicalMenuComponent c props = [props ∪ {["cx" := c]}]
  ∧ (∀ inner, inner ∈ forwarded HierarchicalMenuComponent c props →
       (∀ k v, props !! k = Some v → inner !! k = Some v)
       ∧ (∀ k, k ≠ "cx" → inner !! k = props !! k)
       ∧ inner !! "header" = props !! "header"
       ∧ inner !! "footer" = props !! "footer"
       ∧ (props !! "cx" = None → inner !! "cx" = Some c))
  ∧ ∃ outer,
      forwarded BaseWidget c props = [outer]
      ∧ outer !! "header" = Some (get props "header")
      ∧ outer !! "footer" = Some (get props "footer").
Proof.
  rewrite forwarded_inner, forwarded_outer. split; [reflexivity|]. split.
  - intros inner ->%list_elem_of_singleton. repeat split.
    + intros k v. apply inner_lookup_Some.
    + intros k. apply inner_lookup_other.
    + by apply inner_lookup_other.
    + by apply inner_lookup_other.
    + intros H. rewrite inner_lookup_None by done. apply lookup_singleton_eq.
  - eexists. split; [reflexivity|]. split; by simplify_map_eq.
Qed.

Lemma inner_renderer_receives_all_props_witness :
  (∃ inner,
     inner ∈ forwarded HierarchicalMenuComponent cx {["header" := VStr "Categories"]}
     ∧ inner !! "header" = Some (VStr "Categories")
     ∧ inner !! "cx" = Some cx)
  ∧ ∃ outer,
      forwarded BaseWidget cx {["header" := VStr "Categories"]} = [outer]
      ∧ outer !! "header" = Some (get {["header" := VStr "Categories"]} "header")
      ∧ outer !! "footer" = Some (get {["header" := VStr "Categories"]} "footer").
Proof.
  destruct (inner_renderer_receives_all_props cx {["header" := VStr "Categories"]})
    as (Hfw & Hall & Houter).
  split; [|exact Houter].
  exists ({["header" := VStr "Categories"]} ∪ {["cx" := cx]}).
  assert (Hin : ({["header" := VStr "Categories"]} ∪ {["cx" := cx]} : Props)
                ∈ forwarded HierarchicalMenuComponent cx {["header" := VStr "Categories"]}).
  { rewrite Hfw. apply list_elem_of_singleton. reflexivity. }
  destruct (Hall _ Hin) as (Hsome & _ & _ & _ & Hcx).
  split; [exact Hin|]. split.
  - apply Hsome. reflexivity.
  - apply Hcx. reflexivity.
Defined.

(** C8: when the caller supplies a [cx] prop, the spread that follows the
    explicit [cx] attribute overrides it, so the inner renderer receives
    the caller's value while the outer chrome receives the widget's own;
    the two differ as soon as the caller's value is not the widget's
    function itself. *)
Theorem caller_cx_overrides_inner_only (c v : value) (props : Props) :
  props !! "cx" = Some v →
  v ≠ c →
  ∃ outer inner,
    forwarded BaseWidget c props = [outer]
    ∧ forwarded HierarchicalMenuComponent c props = [inner]
    ∧ outer !! "cx" = Some c
    ∧ inner !! "cx" = Some v
    ∧ inner !! "cx" ≠ outer !! "cx".
Proof.
  intros Hv Hne. rewrite forwarded_outer, forwarded_inner.
  do 2 eexists. split; [reflexivity|]. split; [reflexivity|].
  rewrite outer_lookup_cx, (inner_lookup_Some _ _ _ _ Hv).
  repeat split. congruence.
Qed.

Lemma caller_cx_overrides_inner_only_witness :
  ∃ outer inner,
    forwarded BaseWidget cx {["cx" := VStr "mine"; "attributes" := VArr [VStr "category"]]}
      = [outer]
    ∧ forwarded HierarchicalMenuComponent cx
        {["cx" := VStr "mine"; "attributes" := VArr [VStr "category"]]} = [inner]
    ∧ outer !! "cx" = Some cx
    ∧ inner !! "cx" = Some (VStr "mine")
    ∧ inner !! "cx" ≠ outer !! "cx".
Proof.
  apply (caller_cx_overrides_inner_only cx (VStr "mine")).
  - reflexivity.
  - discriminate.
Defined.

(** ** The class-name function *)

Lemma cx_region (region : string) (t : list event) :
  call_cx cx region t = (Returned ("ais-HierarchicalMenu-" +:+ region), t).
Proof. reflexivity. Qed.

(** C4, as stated, fails in its second half: when the props carry a [cx]
    of their own, the inner renderer is not handed the widget's class-name
    function. *)
Lemma cx_not_forwarded_unchanged_to_inner :
  ¬ (∀ inner,
       inner ∈ forwarded HierarchicalMenuComponent cx {["cx" := VStr "mine"]} →
       inner !! "cx" = Some cx).
Proof.
  intros H.
  specialize (H ({["cx" := VStr "mine"]} ∪ {["cx" := cx]})).
  rewrite forwarded_inner in H.
  specialize (H ltac:(by apply list_elem_of_singleton)).
  erewrite inner_lookup_Some in H by apply lookup_singleton_eq.
  discriminate.
Qed.

(** C4, amended: the class name of a region is the fixed prefix
    [ais-HierarchicalMenu-] followed by the region key; this one function
    is handed to the outer chrome in every render, and to the inner
    renderer whenever the props have no [cx] field of their own. *)
Theorem cx_prefix_and_forwarding (props : Props) :
  (∀ region t,
     call_cx cx region t = (Returned ("ais-HierarchicalMenu-" +:+ region), t))
  ∧ (∃ outer, forwarded BaseWidget cx props = [outer]
              ∧ outer !! "cx" = Some cx)
  ∧ (props !! "cx" = None →
     ∃ inner, forwarded HierarchicalMenuComponent cx props = [inner]
              ∧ inner !! "cx" = Some cx).
Proof.
  split; [exact cx_region|]. split.
  - rewrite forwarded_outer. eexists. split; [reflexivity|].
    apply outer_lookup_cx.
  - intros Hno. rewrite forwarded_inner. eexists. split; [reflexivity|].
    rewrite inner_lookup_None by done. apply lookup_singleton_eq.
Qed.

Lemma cx_prefix_and_forwarding_witness :
  call_cx cx "header" [] = (Returned "ais-HierarchicalMenu-header", [])
  ∧ (∃ outer,
       forwarded BaseWidget cx {["attributes" := VArr [VStr "category"]]} = [outer]
       ∧ outer !! "cx" = Some cx)
  ∧ ∃ inner,
      forwarded HierarchicalMenuComponent cx
        {["attributes" := VArr [VStr "category"]]} = [inner]
      ∧ inner !! "cx" = Some cx.
Proof.
  destruct (cx_prefix_and_forwarding {["attributes" := VArr [VStr "category"]]})
    as (Hcx & Houter & Hinner).
  split; [apply Hcx|]. split; [exact Houter|].
  apply Hinner. reflexivity.
Defined.

(** ** The chrome: header, body, footer *)

Lemma outer_get_header (c h f : value) :
  get (<["footer" := f]> (<["header" := h]> ({["cx" := c]} : Props))) "header" = h.
Proof. unfold get. by simplify_map_eq. Qed.

Lemma outer_get_footer (c h f : value) :
  get (<["footer" := f]> (<["header" := h]> ({["cx" := c]} : Props))) "footer" = f.
Proof. unfold get. by simplify_map_eq. Qed.

Lemma outer_get_cx (c h f : value) :
  get (<["footer" := f]> (<["header" := h]> ({["cx" := c]} : Props))) "cx" = c.
Proof. unfold get. by rewrite outer_lookup_cx. Qed.

Lemma render_run (props : Props) (t : list event) :
  render cx props t
  = (Returned
       (Region "root" "ais-HierarchicalMenu-root"
          (optional_region "header" "ais-HierarchicalMenu-header" (get props "header") ++
           [Region "body" "ais-HierarchicalMenu-body"
              [Nested (Element HierarchicalMenuComponent (props ∪ {["cx" := cx]}) [])]] ++
           optional_region "footer" "ais-HierarchicalMenu-footer" (get props "footer"))),
     t).
Proof.
  unfold render, mbind, M_bind. rewrite Widget_run.
  unfold BaseWidget_render, mbind, M_bind.
  rewrite outer_get_cx, outer_get_header, outer_get_footer.
  reflexivity.
Qed.

Lemma absent_not_provided (props : Props) (k : string) :
  props !! k = None → provided (get props k) = false.
Proof. intros H. unfold get. by rewrite H. Qed.

Lemma optional_region_keys (key cls : string) (v : value) (r : markup) :
  r ∈ optional_region key cls v → region_key r = Some key ∧ provided v = true.
Proof.
  unfold optional_region. destruct (provided v); [|by intros ?%elem_of_nil].
  by intros ->%list_elem_of_singleton.
Qed.

(** C3: in every render the chrome holds one body region; a provided
    header is rendered as a header region right before the body and a
    provided footer as a footer region right after it; when the header
    (the footer) is absent, the chrome has no header (footer) region. *)
Theorem header_before_body_footer_after (props : Props) (t : list event) :
  ∃ m body,
    render cx props t = (Returned m, t)
    ∧ region_key body = Some "body"
    ∧ (provided (get props "header") = true →
       ∃ rest, chrome m
               = Region "header" "ais-HierarchicalMenu-header"
                   [Content (get props "header")] :: body :: rest)
    ∧ (provided (get props "footer") = true →
       ∃ front, chrome m
                = front ++ [body;
                            Region "footer" "ais-HierarchicalMenu-footer"
                              [Content (get props "footer")]])
    ∧ (provided (get props "header") = false →
       ∀ r, r ∈ chrome m → region_key r ≠ Some "header")
    ∧ (provided (get props "footer") = false →
       ∀ r, r ∈ chrome m → region_key r ≠ Some "footer")
    ∧ (props !! "header" = None →
       ∀ r, r ∈ chrome m → region_key r ≠ Some "header")
    ∧ (props !! "footer" = None →
       ∀ r, r ∈ chrome m → region_key r ≠ Some "footer").
Proof.
  rewrite render_run. eexists.
  exists (Region "body" "ais-HierarchicalMenu-body"
            [Nested (Element HierarchicalMenuComponent (props ∪ {["cx" := cx]}) [])]).
  split; [reflexivity|]. cbn [chrome].
  assert (Hh : provided (get props "header") = false →
               ∀ r, r ∈ optional_region "header" "ais-HierarchicalMenu-header"
                          (get props "header") ++
                        [Region "body" "ais-HierarchicalMenu-body"
                           [Nested (Element HierarchicalMenuComponent
                                      (props ∪ {["cx" := cx]}) [])]] ++
                        optional_region "footer" "ais-HierarchicalMenu-footer"
                          (get props "footer") →
                    region_key r ≠ Some "header").
  { intros Hp r [Hr|[Hr|Hr]%elem_of_app]%elem_of_app.
    - apply optional_region_keys in Hr as [_ Hr]. congruence.
    - apply list_elem_of_singleton in Hr as ->. discriminate.
    - apply optional_region_keys in Hr as [-> _]. discriminate. }
  assert (Hf : provided (get props "footer") = false →
               ∀ r, r ∈ optional_region "header" "ais-HierarchicalMenu-header"
                          (get props "header") ++
                        [Region "body" "ais-HierarchicalMenu-body"
                           [Nested (Element HierarchicalMenuComponent
                                      (props ∪ {["cx" := cx]}) [])]] ++
                        optional_region "footer" "ais-HierarchicalMenu-footer"
                          (get props "footer") →
                    region_key r ≠ Some "footer").
  { intros Hp r [Hr|[Hr|Hr]%elem_of_app]%elem_of_app.
    - apply optional_region_keys in Hr as [-> _]. discriminate.
    - apply list_elem_of_singleton in Hr as ->. discriminate.
    - apply optional_region_keys in Hr as [_ Hr]. congruence. }
  split; [reflexivity|]. split; [|split; [|split; [|split; [|split]]]].
  - intros Hp. unfold optional_region at 1. rewrite Hp. eexists. reflexivity.
  - intros Hp. unfold optional_region at 2. rewrite Hp.
    exists (optional_region "header" "ais-HierarchicalMenu-header" (get props "header")).
    reflexivity.
  - exact Hh.
  - exact Hf.
  - intros Hno. apply Hh. by apply absent_not_provided.
  - intros Hno. apply Hf. by apply absent_not_provided.
Qed.

Lemma header_before_body_footer_after_witness :
  ∃ m body,
    render cx {["header" := VStr "Categories"]} [] = (Returned m, [])
    ∧ region_key body = Some "body"
    ∧ (∃ rest, chrome m
               = Region "header" "ais-HierarchicalMenu-header"
                   [Content (get {["header" := VStr "Categories"]} "header")]
                 :: body :: rest)
    ∧ (∀ r, r ∈ chrome m → region_key r ≠ Some "footer").
Proof.
  destruct (header_before_body_footer_after {["header" := VStr "Categories"]} [])
    as (m & body & Hrun & Hbody & Hhead & _ & _ & _ & _ & Hfoot).
  exists m, body. split; [exact Hrun|]. split; [exact Hbody|]. split.
  - apply Hhead. reflexivity.
  - apply Hfoot. reflexivity.
Defined.

(** ** Rendering has no effect and no memory *)

(** C6: a render returns its tree and leaves the trace of effects as it
    found it, and the tree depends on the props alone: two renders with the
    same props, from whatever states, give the same output.  This holds
    for the function [Widget] and for the whole render pass. *)
Theorem Widget_stateless_deterministic (c : value) (props : Props)
    (t1 t2 : list event) :
  (∃ tree, Widget c props t1 = (Returned tree, t1)
           ∧ Widget c props t2 = (Returned tree, t2))
  ∧ (∃ m, render cx props t1 = (Returned m, t1)
          ∧ render cx props t2 = (Returned m, t2)).
Proof.
  split.
  - eexists. split; apply Widget_run.
  - eexists. split; apply render_run.
Qed.

(** A sequence of renders, whatever the props of each, returns one tree per
    render and leaves the trace untouched. *)
Lemma renders_run (c : value) (renders : list Props) (t : list event) :
  ∃ trees,
    mapM (Widget c) renders t = (Returned trees, t)
    ∧ Forall2 (λ props tree,
         passed_to BaseWidget tree
         = [<["footer" := get props "footer"]>
              (<["header" := get props "header"]> {["cx" := c]})]
         ∧ passed_to HierarchicalMenuComponent tree = [props ∪ {["cx" := c]}])
        renders trees.
Proof.
  induction renders as [|props renders IH].
  - exists []. split; [reflexivity | constructor].
  - destruct IH as (trees & Hrun & Hall).
    eexists (_ :: trees). split.
    + cbn [mapM]. unfold mbind, M_bind at 1. rewrite Widget_run.
      unfold mbind, M_bind at 1. cbn [mapM] in Hrun. rewrite Hrun. reflexivity.
    + constructor; [split; reflexivity | exact Hall].
Qed.

Lemma module_run (t0 : list event) :
  HierarchicalMenu_js t0
  = (Returned (Module_ cx (Widget cx) Widget_propTypes
                 (λ st props,
                    let config := configuration props in
                    if well_configured st config
                    then Widget cx (connected_props st config)
                    else throw (ConfigurationError "attributes"))),
     t0 ++ [CalledClassNames "HierarchicalMenu"; CalledConnect]).
Proof.
  unfold HierarchicalMenu_js, classNames, connectHierarchicalMenu,
    mbind, M_bind, mret, M_ret, emit.
  rewrite <- app_assoc. reflexivity.
Qed.

Lemma inner_lookup_cx (c : value) (props : Props) :
  (props ∪ {["cx" := c]}) !! "cx" = Some (default c (props !! "cx")).
Proof.
  destruct (props !! "cx") as [v|] eqn:E.
  - by apply inner_lookup_Some.
  - rewrite inner_lookup_None by done. apply lookup_singleton_eq.
Qed.

Lemma connected_props_lookup_cx (st : searchState) (props : Props) :
  connected_props st (configuration props) !! "cx" = props !! "cx".
Proof.
  unfold connected_props, configuration.
  rewrite !lookup_insert_ne by done.
  destruct (props !! "cx") as [v|] eqn:E.
  - by apply lookup_union_Some_l.
  - by rewrite lookup_union_r.
Qed.

(** C10, as stated, fails for the inner renderer: in a render whose props
    carry a [cx], the class-name function the inner renderer is handed is
    the caller's and not the one the module bound. *)
Lemma caller_cx_replaces_module_cx_for_inner :
  ∃ m tree inner,
    HierarchicalMenu_js []
    = (Returned m, [CalledClassNames "HierarchicalMenu"; CalledConnect])
    ∧ m_Widget m {["cx" := VStr "mine"]} [] = (Returned tree, [])
    ∧ passed_to HierarchicalMenuComponent tree = [inner]
    ∧ inner !! "cx" = Some (VStr "mine")
    ∧ inner !! "cx" ≠ Some (m_cx m).
Proof.
  eexists _, _, _. split; [exact (module_run [])|].
  cbn [m_Widget m_cx]. split; [apply Widget_run|].
  split; [reflexivity|].
  erewrite inner_lookup_Some by apply lookup_singleton_eq.
  split; [reflexivity | discriminate].
Qed.

(** C10, amended: evaluating the module calls [classNames] exactly once,
    with ['HierarchicalMenu'], and binds what that call returns to [cx]; no
    render calls it again or rebinds [cx].  Every render of the function,
    whatever its props, hands that same function to the chrome, and to the
    inner renderer unless the props carry a [cx] of their own, which then
    takes its place there.  A render of the exported component either
    stops on a configuration error or does the same. *)
Theorem cx_bound_once_and_invariant (t0 : list event) :
  ∃ m,
    HierarchicalMenu_js t0
    = (Returned m, t0 ++ [CalledClassNames "HierarchicalMenu"; CalledConnect])
    ∧ classNames "HierarchicalMenu" t0
      = (Returned (m_cx m), t0 ++ [CalledClassNames "HierarchicalMenu"])
    ∧ (∀ (renders : list Props) (t : list event),
         ∃ trees,
           mapM (m_Widget m) renders t = (Returned trees, t)
           ∧ Forall2 (λ props tree,
                ∃ outer inner,
                  passed_to BaseWidget tree = [outer]
                  ∧ passed_to HierarchicalMenuComponent tree = [inner]
                  ∧ outer !! "cx" = Some (m_cx m)
                  ∧ inner !! "cx" = Some (default (m_cx m) (props !! "cx")))
               renders trees)
    ∧ ∀ (st : searchState) (props : Props) (t : list event),
        if well_configured st (configuration props)
        then ∃ tree outer inner,
               m_default m st props t = (Returned tree, t)
               ∧ passed_to BaseWidget tree = [outer]
               ∧ passed_to HierarchicalMenuComponent tree = [inner]
               ∧ outer !! "cx" = Some (m_cx m)
               ∧ inner !! "cx" = Some (default (m_cx m) (props !! "cx"))
        else ∃ msg, m_default m st props t = (Thrown (ConfigurationError msg), t).
Proof.
  eexists. split; [apply module_run|].
  cbn [m_cx m_Widget m_default].
  split; [reflexivity|]. split.
  - intros renders t.
    destruct (renders_run cx renders t) as (trees & Hrun & Hall).
    exists trees. split; [exact Hrun|].
    eapply Forall2_impl; [exact Hall|]. intros props tree [Hout Hin].
    do 2 eexists. split; [exact Hout|]. split; [exact Hin|]. split.
    + apply outer_lookup_cx.
    + apply inner_lookup_cx.
  - intros st props t.
    destruct (well_configured st (configuration props)).
    + do 3 eexists. split; [apply Widget_run|].
      split; [reflexivity|]. split; [reflexivity|]. split.
      * apply outer_lookup_cx.
      * by rewrite inner_lookup_cx, connected_props_lookup_cx.
    + eexists. reflexivity.
Qed.

(** ** Prop validation *)

Lemma get_insert_ne (props : Props) (k k' : string) (v : value) :
  k ≠ k' → get (<[k := v]> props) k' = get props k'.
Proof. intros H. unfold get. by rewrite lookup_insert_ne. Qed.

Lemma get_delete_ne (props : Props) (k k' : string) :
  k ≠ k' → get (delete k props) k' = get props k'.
Proof. intros H. unfold get. by rewrite lookup_delete_ne. Qed.

Lemma checkPropTypes_Widget (renderable : value → bool) (props : Props) :
  checkPropTypes renderable Widget_propTypes props
  = (if provided (get props "header") && negb (renderable (get props "header"))
     then [("header", Mismatch)] else [])
    ++ (if provided (get props "footer") && negb (renderable (get props "footer"))
        then [("footer", Mismatch)] else []).
Proof.
  unfold checkPropTypes, Widget_propTypes, provided. cbn [omap list_omap check].
  destruct (nullish (get props "header")), (renderable (get props "header")),
    (nullish (get props "footer")), (renderable (get props "footer"));
    reflexivity.
Qed.

Example check_renderable_header :
  checkPropTypes isNode Widget_propTypes
    {["header" := VArr [VStr "Categories"; VElement "icon"]]} = [].
Proof. vm_compute. reflexivity. Qed.

Example check_function_header_object_footer :
  checkPropTypes isNode Widget_propTypes
    {["header" := VFunction "f"; "footer" := VObj [("a", VNum 1)]]}
  = [("header", Mismatch); ("footer", Mismatch)].
Proof. vm_compute. reflexivity. Qed.

Example check_required_missing :
  check isNode false (isRequired PropTypes_node) VUndefined = Some Missing.
Proof. reflexivity. Qed.



(** C9: the validation table has the two entries [header] and [footer],
    each the optional [node] checker; the outcome of the check does not
    depend on any other prop, present or not, and is empty when header and
    footer are omitted; and each of the configuration props reaches the
    inner renderer exactly as the caller gave it, or not at all when
    omitted. *)
Theorem only_header_footer_validated (renderable : value → bool) (props : Props) :
  Widget_propTypes = [("header", PropTypes_node); ("footer", PropTypes_node)]
  ∧ (∀ k v, k ≠ "header" → k ≠ "footer" →
       checkPropTypes renderable Widget_propTypes (<[k := v]> props)
       = checkPropTypes renderable Widget_propTypes props)
  ∧ (∀ k, k ≠ "header" → k ≠ "footer" →
       checkPropTypes renderable Widget_propTypes (delete k props)
       = checkPropTypes renderable Widget_propTypes props)
  ∧ (props !! "header" = None → props !! "footer" = None →
     checkPropTypes renderable Widget_propTypes props = [])
  ∧ (∀ k, k ∈ ["attributes"; "showMore"; "limitMin"; "limitMax"; "separator";
               "rootPath"; "showParentLevel"; "defaultRefinement";
               "transformItems"] →
       ∀ inner, inner ∈ forwarded HierarchicalMenuComponent cx props →
                inner !! k = props !! k).
Proof.
  split; [reflexivity|]. split; [|split; [|split]].
  - intros k v Hh Hf. rewrite !checkPropTypes_Widget.
    by rewrite !get_insert_ne.
  - intros k Hh Hf. rewrite !checkPropTypes_Widget.
    by rewrite !get_delete_ne.
  - intros Hh Hf. rewrite checkPropTypes_Widget.
    by rewrite !absent_not_provided.
  - intros k Hk inner. rewrite forwarded_inner.
    intros ->%list_elem_of_singleton. apply inner_lookup_other.
    intros ->. revert Hk. rewrite !elem_of_cons, elem_of_nil.
    intros [?|[?|[?|[?|[?|[?|[?|[?|[?|[]]]]]]]]]]; discriminate.
Qed.

Lemma only_header_footer_validated_witness :
  checkPropTypes isNode Widget_propTypes
    (<["limitMin" := VStr "ten"]> {["attributes" := VNum 3]})
  = checkPropTypes isNode Widget_propTypes {["attributes" := VNum 3]}
  ∧ checkPropTypes isNode Widget_propTypes {["attributes" := VNum 3]} = []
  ∧ ∃ inner,
      inner ∈ forwarded HierarchicalMenuComponent cx {["attributes" := VNum 3]}
      ∧ inner !! "attributes" = Some (VNum 3).
Proof.
  destruct (only_header_footer_validated isNode {["attributes" := VNum 3]})
    as (_ & Hins & _ & Hnone & Hfw).
  split; [|split].
  - apply Hins; discriminate.
  - apply Hnone; reflexivity.
  - exists ({["attributes" := VNum 3]} ∪ {["cx" := cx]}).
    assert (Hin : ({["attributes" := VNum 3]} ∪ {["cx" := cx]} : Props)
                  ∈ forwarded HierarchicalMenuComponent cx {["attributes" := VNum 3]}).
    { rewrite forwarded_inner. apply list_elem_of_singleton. reflexivity. }
    split; [exact Hin|].
    rewrite (Hfw "attributes" ltac:(apply list_elem_of_here) _ Hin). reflexivity.
Defined.

(** ** Configuration defaults *)

Lemma documented_defaults_list :
  omap documented_default propType_docs
  = [("showMore", VBool false); ("limitMin", VNum 10); ("limitMax", VNum 20);
     ("separator", VStr ">"); ("rootPath", VNull);
     ("showParentLevel", VBool true)].
Proof. reflexivity. Qed.

Lemma defaultProps_lookup (k : string) (d : value) :
  (k, d) ∈ omap documented_default propType_docs → defaultProps !! k = Some d.
Proof.
  intros H. unfold defaultProps. apply elem_of_list_to_map_1; [|exact H].
  rewrite documented_defaults_list. cbn [fmap list_fmap fst].
  apply (bool_decide_unpack (NoDup ["showMore"; "limitMin"; "limitMax";
                                     "separator"; "rootPath"; "showParentLevel"])).
  vm_compute. exact I.
Qed.

Lemma displayed_limit_without_showMore (config : Props) (extended : bool) :
  truthy (get config "showMore") = false →
  displayed_limit config extended = get config "limitMin".
Proof. intros H. unfold displayed_limit. by rewrite H. Qed.

Lemma documented_default_key (k : string) (d : value) :
  (k, d) ∈ omap documented_default propType_docs →
  k ≠ "cx" ∧ k ≠ "items" ∧ k ≠ "refine".
Proof.
  rewrite documented_defaults_list, !elem_of_cons, elem_of_nil.
  intros [H|[H|[H|[H|[H|[H|[]]]]]]]; injection H as -> _;
    repeat split; discriminate.
Qed.

Lemma connected_props_lookup_other (st : searchState) (config : Props)
    (k : string) :
  k ≠ "items" → k ≠ "refine" → connected_props st config !! k = config !! k.
Proof. intros Hi Hr. unfold connected_props. by rewrite !lookup_insert_ne. Qed.

(** C7: the documented defaults are [showMore] false, [limitMin] 10,
    [limitMax] 20, [separator] ['>'], [rootPath] null (none) and
    [showParentLevel] true; a prop the caller omits takes its default in
    the configuration, a prop the caller gives keeps its value; with
    everything omitted ten items are shown; while [showMore] is false the
    number of items shown does not depend on [limitMax]; and a render of
    the exported component, when its configuration is in order, hands the
    inner renderer each omitted prop at its default, each given prop as
    given, and the connector's item tree and refinement function. *)
Theorem defaults_when_omitted (props : Props) :
  omap documented_default propType_docs
  = [("showMore", VBool false); ("limitMin", VNum 10); ("limitMax", VNum 20);
     ("separator", VStr ">"); ("rootPath", VNull);
     ("showParentLevel", VBool true)]
  ∧ (∀ k d, (k, d) ∈ omap documented_default propType_docs →
            props !! k = None → configuration props !! k = Some d)
  ∧ (props !! "rootPath" = None →
     provided (get (configuration props) "rootPath") = false)
  ∧ (∀ k v, props !! k = Some v → configuration props !! k = Some v)
  ∧ (∀ extended, displayed_limit (configuration ∅) extended = VNum 10)
  ∧ (∀ (config : Props) v extended,
       truthy (get config "showMore") = false →
       displayed_limit (<["limitMax" := v]> config) extended
       = displayed_limit config extended)
  ∧ (∀ (st : searchState) (t : list event),
       ∃ m t',
         HierarchicalMenu_js t = (Returned m, t')
         ∧ ∀ t1,
             if well_configured st (configuration props)
             then ∃ tree inner,
                    m_default m st props t1 = (Returned tree, t1)
                    ∧ passed_to HierarchicalMenuComponent tree = [inner]
                    ∧ (∀ k d, (k, d) ∈ omap documented_default propType_docs →
                              props !! k = None → inner !! k = Some d)
                    ∧ (∀ k v, props !! k = Some v → k ≠ "items" → k ≠ "refine" →
                              inner !! k = Some v)
                    ∧ inner !! "items" = Some (st_items st)
                    ∧ inner !! "refine" = Some (st_refine st)
             else ∃ msg, m_default m st props t1
                         = (Thrown (ConfigurationError msg), t1)).
Proof.
  assert (Hdef : ∀ k d, (k, d) ∈ omap documented_default propType_docs →
                        props !! k = None → configuration props !! k = Some d).
  { intros k d Hd Hno. unfold configuration.
    rewrite lookup_union_r by done. by apply defaultProps_lookup. }
  assert (Hgiven : ∀ k v, props !! k = Some v → configuration props !! k = Some v).
  { intros k v Hv. unfold configuration. by apply lookup_union_Some_l. }
  split; [exact documented_defaults_list|].
  split; [exact Hdef|]. split; [|split; [exact Hgiven|split; [|split]]].
  - intros Hno. unfold get.
    rewrite (Hdef "rootPath" VNull); [reflexivity| |exact Hno].
    rewrite documented_defaults_list. rewrite !elem_of_cons. tauto.
  - intros extended. rewrite displayed_limit_without_showMore.
    + unfold get, configuration. rewrite lookup_union_r by apply lookup_empty.
      rewrite (defaultProps_lookup "limitMin" (VNum 10)); [reflexivity|].
      rewrite documented_defaults_list. rewrite !elem_of_cons. tauto.
    + unfold get, configuration. rewrite lookup_union_r by apply lookup_empty.
      rewrite (defaultProps_lookup "showMore" (VBool false)); [reflexivity|].
      rewrite documented_defaults_list. rewrite !elem_of_cons. tauto.
  - intros config v extended Hs.
    rewrite !displayed_limit_without_showMore.
    + by apply get_insert_ne.
    + exact Hs.
    + by rewrite get_insert_ne.
  - intros st t. do 2 eexists. split; [apply module_run|].
    cbn [m_default]. intros t1.
    destruct (well_configured st (configuration props)).
    + do 2 eexists. split; [apply Widget_run|]. split; [reflexivity|].
      split; [|split; [|split]].
      * intros k d Hd Hno.
        destruct (documented_default_key k d Hd) as (Hcx & Hi & Hr).
        rewrite inner_lookup_other, connected_props_lookup_other by done.
        by apply Hdef.
      * intros k v Hv Hi Hr. apply inner_lookup_Some.
        rewrite connected_props_lookup_other by done. by apply Hgiven.
      * apply inner_lookup_Some. unfold connected_props. apply lookup_insert_eq.
      * apply inner_lookup_Some. unfold connected_props.
        rewrite lookup_insert_ne by done. apply lookup_insert_eq.
    + eexists. reflexivity.
Qed.

Lemma defaults_when_omitted_witness :
  configuration {["attributes" := VArr [VStr "category"]]} !! "separator"
  = Some (VStr ">")
  ∧ provided (get (configuration {["attributes" := VArr [VStr "category"]]})
                "rootPath") = false
  ∧ displayed_limit (<["limitMax" := VNum 50]> (configuration ∅)) true
    = displayed_limit (configuration ∅) true
  ∧ ∃ m t' tree inner,
      HierarchicalMenu_js [] = (Returned m, t')
      ∧ m_default m (SearchState ["category"] (VArr []) (VFunction "refine"))
          {["attributes" := VArr [VStr "category"]]} t'
        = (Returned tree, t')
      ∧ passed_to HierarchicalMenuComponent tree = [inner]
      ∧ inner !! "limitMin" = Some (VNum 10)
      ∧ inner !! "attributes" = Some (VArr [VStr "category"]).
Proof.
  destruct (defaults_when_omitted {["attributes" := VArr [VStr "category"]]})
    as (Hlist & Hdef & Hroot & _ & _ & Hlim & Hexport).
  split; [|split; [|split]].
  - apply Hdef; [|reflexivity].
    rewrite Hlist. do 3 apply list_elem_of_further. apply list_elem_of_here.
  - apply Hroot. reflexivity.
  - apply Hlim. reflexivity.
  - destruct (Hexport (SearchState ["category"] (VArr []) (VFunction "refine")) [])
      as (m & t' & Hload & Hrender).
    specialize (Hrender t').
    assert (Hwc : well_configured
                    (SearchState ["category"] (VArr []) (VFunction "refine"))
                    (configuration {["attributes" := VArr [VStr "category"]]})
                  = true) by (vm_compute; reflexivity).
    rewrite Hwc in Hrender.
    destruct Hrender as (tree & inner & Hrun & Hin & Hd & Hg & _ & _).
    exists m, t', tree, inner. split; [exact Hload|]. split; [exact Hrun|].
    split; [exact Hin|]. split.
    + apply Hd; [|reflexivity].
      rewrite Hlist. apply list_elem_of_further, list_elem_of_here.
    + apply Hg; [reflexivity | discriminate | discriminate].
Defined.

(** ** Theme keys *)

Lemma list_level_key_not_searchBox (n : nat) :
  list_level_key n ≠ "ais-HierarchicalMenu-searchBox".
Proof. unfold list_level_key. cbn [String.append]. discriminate. Qed.

Lemma list_level_key_not_list (n : nat) :
  list_level_key n ≠ "ais-HierarchicalMenu-list".
Proof. unfold list_level_key. cbn [String.append]. discriminate. Qed.

(** C2, as stated, fails: the documentation lists a theme key for the
    search box and one for the list as such, which are none of the
    enumerated regions. *)
Lemma searchBox_themeKey_outside_enumeration :
  (is_themeKey "ais-HierarchicalMenu-searchBox"
   ∧ ¬ ∃ r, spec_themeKey r = "ais-HierarchicalMenu-searchBox")
  ∧ (is_themeKey "ais-HierarchicalMenu-list"
     ∧ ¬ ∃ r, spec_themeKey r = "ais-HierarchicalMenu-list").
Proof.
  split; split.
  - left. unfold themeKeys. in_literal_list.
  - intros [r Hr].
    destruct r; first [discriminate | by apply list_level_key_not_searchBox in Hr].
  - left. unfold themeKeys. in_literal_list.
  - intros [r Hr].
    destruct r; first [discriminate | by apply list_level_key_not_list in Hr].
Qed.

(** C2, amended: the theme keys are the identifiers of the enumerated
    regions (root, header, body, one list key per level, item, selected
    item, parent item, link, label, count, footer) together with two more,
    the key of the search box and the key of the list as such; no other
    theme key exists. *)
Theorem themeKeys_enumerated (s : string) :
  is_themeKey s
  ↔ (∃ r, spec_themeKey r = s)
    ∨ s = "ais-HierarchicalMenu-searchBox"
    ∨ s = "ais-HierarchicalMenu-list".
Proof.
  split.
  - intros [Hs | [n ->]].
    + unfold themeKeys in Hs. rewrite !elem_of_cons, elem_of_nil in Hs.
      destruct Hs as [->|[->|[->|[->|[->|[->|[->|[->|[->|[->|[->|[->|[->|[->|[]]]]]]]]]]]]]]].
      * left. by exists RootRegion.
      * left. by exists HeaderRegion.
      * left. by exists BodyRegion.
      * right. by left.
      * right. by right.
      * left. by exists (ListRegion 0).
      * left. by exists (ListRegion 1).
      * left. by exists ItemRegion.
      * left. by exists SelectedItemRegion.
      * left. by exists ParentItemRegion.
      * left. by exists LinkRegion.
      * left. by exists LabelRegion.
      * left. by exists CountRegion.
      * left. by exists FooterRegion.
    + left. by exists (ListRegion n).
  - intros [[r <-] | [-> | ->]].
    + destruct r; try (left; unfold themeKeys; cbn [spec_themeKey]; in_literal_list; fail).
      right. by eexists.
    + left. unfold themeKeys. in_literal_list.
    + left. unfold themeKeys. in_literal_list.
Qed.

(** * Further properties of the widget *)

(** ** What the chrome receives *)


(** X1: whatever the props hold, the chrome is handed exactly the three
    attributes [cx], [header] and [footer], the last two being what
    [props.header] and [props.footer] read; no other prop of the caller
    ever reaches the chrome. *)
Theorem chrome_receives_exactly_cx_header_footer (c : value) (props : Props) :
  ∃ outer,
    forwarded BaseWidget c props = [outer]
    ∧ dom outer = {["cx"; "header"; "footer"]}
    ∧ outer !! "cx" = Some c
    ∧ outer !! "header" = Some (get props "header")
    ∧ outer !! "footer" = Some (get props "footer").
Proof.
  rewrite forwarded_outer. eexists. split; [reflexivity|].
  split; [|split; [|split]].
  - rewrite !dom_insert_L, dom_singleton_L. set_solver.
  - apply outer_lookup_cx.
  - by simplify_map_eq.
  - by simplify_map_eq.
Qed.

(** X2: the chrome depends on the props through [props.header] and
    [props.footer] only: two props objects that read the same header and
    the same footer give the chrome the same attribute object, however
    they differ otherwise. *)
Theorem chrome_depends_on_header_footer_only (c : value) (props1 props2 : Props) :
  get props1 "header" = get props2 "header" →
  get props1 "footer" = get props2 "footer" →
  forwarded BaseWidget c props1 = forwarded BaseWidget c props2.
Proof. intros Hh Hf. rewrite !forwarded_outer. by rewrite Hh, Hf. Qed.

Lemma chrome_depends_on_header_footer_only_witness :
  forwarded BaseWidget cx
    {["header" := VStr "Categories"; "attributes" := VArr [VStr "category"]]}
  = forwarded BaseWidget cx
      {["header" := VStr "Categories"; "showMore" := VBool true;
        "cx" := VStr "mine"]}.
Proof.
  apply chrome_depends_on_header_footer_only; reflexivity.
Defined.

(** X3: an omitted header and a header given as [undefined] are one and the
    same for the chrome, which reads [props.header], but not for the inner
    renderer, which gets the props spread: there the key is missing in the
    first case and present, holding [undefined], in the second.  The same
    holds of the footer. *)
Theorem omitted_and_undefined_differ_for_inner_only (c : value) (props : Props)
    (k : string) :
  k = "header" ∨ k = "footer" →
  props !! k = None →
  forwarded BaseWidget c (<[k := VUndefined]> props) = forwarded BaseWidget c props
  ∧ ∃ inner inner',
      forwarded HierarchicalMenuComponent c props = [inner]
      ∧ forwarded HierarchicalMenuComponent c (<[k := VUndefined]> props) = [inner']
      ∧ inner !! k = None
      ∧ inner' !! k = Some VUndefined.
Proof.
  intros Hk Hno. split.
  - apply chrome_depends_on_header_footer_only; unfold get.
    + destruct Hk as [-> | ->].
      * by rewrite lookup_insert_eq, Hno.
      * by rewrite lookup_insert_ne.
    + destruct Hk as [-> | ->].
      * by rewrite lookup_insert_ne.
      * by rewrite lookup_insert_eq, Hno.
  - rewrite !forwarded_inner. do 2 eexists.
    split; [reflexivity|]. split; [reflexivity|]. split.
    + rewrite inner_lookup_other; [exact Hno|]. destruct Hk as [-> | ->]; done.
    + apply inner_lookup_Some, lookup_insert_eq.
Qed.

Lemma omitted_and_undefined_differ_for_inner_only_witness :
  forwarded BaseWidget cx
    (<["footer" := VUndefined]> {["attributes" := VArr [VStr "category"]]})
  = forwarded BaseWidget cx {["attributes" := VArr [VStr "category"]]}
  ∧ ∃ inner inner',
      forwarded HierarchicalMenuComponent cx
        {["attributes" := VArr [VStr "category"]]} = [inner]
      ∧ forwarded HierarchicalMenuComponent cx
          (<["footer" := VUndefined]> {["attributes" := VArr [VStr "category"]]})
        = [inner']
      ∧ inner !! "footer" = None
      ∧ inner' !! "footer" = Some VUndefined.
Proof.
  apply (omitted_and_undefined_differ_for_inner_only cx
           {["attributes" := VArr [VStr "category"]]} "footer").
  - right. reflexivity.
  - reflexivity.
Defined.

(** ** How the spread composes with changes of the props *)

Lemma inner_without_cx (c : value) (props : Props) :
  props !! "cx" = None → props ∪ {["cx" := c]} = <["cx" := c]> props.
Proof.
  intros Hno. apply map_eq. intros k. destruct (decide (k = "cx")) as [->|Hk].
  - rewrite inner_lookup_None by done. by rewrite lookup_singleton_eq, lookup_insert_eq.
  - rewrite inner_lookup_other by done. by rewrite lookup_insert_ne.
Qed.

Lemma inner_with_cx (c : value) (props : Props) :
  is_Some (props !! "cx") → props ∪ {["cx" := c]} = props.
Proof.
  intros [v Hv]. apply map_eq. intros k. destruct (decide (k = "cx")) as [->|Hk].
  - rewrite Hv. by apply inner_lookup_Some.
  - by apply inner_lookup_other.
Qed.




(** X6: the inner renderer is handed the keys of the props and [cx], no
    more and no fewer: always a [cx] attribute, one attribute more than the
    caller gave when the props have no [cx], exactly as many when they
    have. *)
Theorem inner_keys_are_props_keys_and_cx (c : value) (props : Props) :
  ∃ inner,
    forwarded HierarchicalMenuComponent c props = [inner]
    ∧ dom inner = dom props ∪ {["cx"]}
    ∧ is_Some (inner !! "cx")
    ∧ size inner = match props !! "cx" with
                   | Some _ => size props
                   | None => S (size props)
                   end.
Proof.
  rewrite forwarded_inner. eexists. split; [reflexivity|].
  split; [|split].
  - by rewrite dom_union_L, dom_singleton_L.
  - destruct (props !! "cx") as [w|] eqn:E.
    + exists w. by apply inner_lookup_Some.
    + exists c. rewrite inner_lookup_None by done. apply lookup_singleton_eq.
  - destruct (props !! "cx") as [w|] eqn:E.
    + by rewrite inner_with_cx by (by exists w).
    + rewrite inner_without_cx by done. by apply map_size_insert_None.
Qed.

(** X8: when the props carry a [cx] of their own, the inner renderer is
    handed the props object as it is, nothing added and nothing replaced;
    hence rendering again with what the inner renderer received, under
    whatever class-name function, hands over the same object once more. *)
Theorem props_with_cx_forwarded_as_they_are (c c' : value) (props : Props) :
  (is_Some (props !! "cx") →
   forwarded HierarchicalMenuComponent c props = [props])
  ∧ ∀ inner, inner ∈ forwarded HierarchicalMenuComponent c props →
             forwarded HierarchicalMenuComponent c' inner = [inner].
Proof.
  rewrite !forwarded_inner. split.
  - intros H. by rewrite inner_with_cx.
  - intros inner ->%list_elem_of_singleton. rewrite forwarded_inner.
    rewrite (inner_with_cx c'); [reflexivity|].
    destruct (props !! "cx") as [w|] eqn:E.
    + exists w. by apply inner_lookup_Some.
    + exists c. rewrite inner_lookup_None by done. apply lookup_singleton_eq.
Qed.

Lemma props_with_cx_forwarded_as_they_are_witness :
  forwarded HierarchicalMenuComponent cx
    {["cx" := VStr "mine"; "limitMin" := VNum 5]}
  = [{["cx" := VStr "mine"; "limitMin" := VNum 5]}].
Proof.
  destruct (props_with_cx_forwarded_as_they_are cx cx
              {["cx" := VStr "mine"; "limitMin" := VNum 5]}) as [Hown _].
  apply Hown. exists (VStr "mine"). reflexivity.
Defined.

(** ** Validation and forwarding *)

